(** * Position-evaluation heuristics of [projects/proj2/evaluation.py]

    A shallow embedding of the two evaluators [soccer] and [connect_four]
    and the proofs of their specified properties.

    Python integers are [Z]; Python floats are IEEE-754 binary64 values,
    i.e. Rocq's primitive [float]; a raised exception is a value of [exn].
    Calls to the accessors of the game state and to the nested helper
    [score_alignment] are recorded in a trace, so that statements about
    which calls an evaluation makes can be expressed. The global names of
    the module are modelled too: [connect_four] looks its own name up when
    it runs, and finds the function that line 47 bound to it, not the
    module that line 4 imported. *)

From Stdlib Require Import ZArith List Bool String Lia Floats Permutation.
From Stdlib Require Uint63.
Import ListNotations.
Local Open Scope Z_scope.

(** ** Exceptions, events and the evaluation monad *)

Inductive exn : Type :=
| ValueError (msg : string)
| OverflowError (msg : string)
| AttributeError (msg : string)
| NameError (msg : string).

(** The error the evaluators raise on a state of the wrong game. *)
Definition VariantMismatch : exn :=
  ValueError "Evaluation function incompatible with game type.".

(** The error of looking up [Connect4State] on a function object. *)
Definition Connect4StateMissing : exn :=
  AttributeError "'function' object has no attribute 'Connect4State'".

Inductive result (A : Type) : Type :=
| Ok (a : A)
| Raise (e : exn).
Arguments Ok {A} a.
Arguments Raise {A} e.

(** What an evaluation does that is visible from outside: the accessor
    calls on the state and the calls of [score_alignment]. *)
Inductive event : Type :=
| EvGoalPosition (player : Z)
| EvBallPosition
| EvPossession
| EvLines
| EvScoreAlignment (count opponent_count : Z).

Definition trace := list event.

(** A computation reads the trace so far and returns a result together
    with the extended trace; a raise keeps the trace as it was then. *)
Definition M (A : Type) : Type := trace -> result A * trace.

Definition ret {A} (a : A) : M A := fun t => (Ok a, t).

Definition raise {A} (e : exn) : M A := fun t => (Raise e, t).

Definition bind {A B} (m : M A) (k : A -> M B) : M B :=
  fun t =>
    match m t with
    | (Ok a, t') => k a t'
    | (Raise e, t') => (Raise e, t')
    end.

Definition emit (e : event) : M unit := fun t => (Ok tt, t ++ [e]).

Declare Scope eval_scope.
Delimit Scope eval_scope with eval.
Notation "x <- m ;; k" := (bind m (fun x => k))
  (at level 61, m at next level, right associativity) : eval_scope.
Notation "m ;;; k" := (bind m (fun _ => k))
  (at level 61, right associativity) : eval_scope.
Local Open Scope eval_scope.

(** A whole call: the evaluation started on the empty trace. *)
Definition run {A} (m : M A) : result A * trace := m [].

Definition outcome {A} (m : M A) : result A := fst (run m).

Definition events {A} (m : M A) : trace := snd (run m).

(** [for x in xs: acc = body acc x] *)
Fixpoint for_each {A S} (xs : list A) (body : S -> A -> M S) (acc : S) : M S :=
  match xs with
  | [] => ret acc
  | x :: xs' => acc' <- body acc x ;; for_each xs' body acc'
  end.

(** ** The game states

    Modelled from the spec: the classes [discrete_soccer.SoccerState] and
    [connect_four.Connect4State] of [lib/game] are not among the sources.
    Their accessors are those of the data model: a soccer state gives the
    goal position of a player, the ball position and the player in
    possession (or none); a connect-four state gives its lines, sequences of
    cells that hold a player id or are empty. Positions are pairs of grid
    coordinates, Python integers. *)

Definition position : Type := Z * Z.

Record SoccerState : Type := {
  goal_position : Z -> position;
  ball_position : position;
  possession : option Z
}.

Definition cell : Type := option Z.

Definition line : Type := list cell.

Record Connect4State : Type := {
  lines : list line
}.

(** An argument of an evaluator is any Python object: a soccer state, a
    connect-four state, or something else. *)
Inductive GameState : Type :=
| IsSoccerState (s : SoccerState)
| IsConnect4State (c : Connect4State)
| OtherObject.

Definition get_goal_position (s : SoccerState) (player_id : Z) : M position :=
  emit (EvGoalPosition player_id) ;;; ret (goal_position s player_id).

Definition get_ball_position (s : SoccerState) : M position :=
  emit EvBallPosition ;;; ret (ball_position s).

Definition get_possession (s : SoccerState) : M (option Z) :=
  emit EvPossession ;;; ret (possession s).

Definition get_lines (c : Connect4State) : M (list line) :=
  emit EvLines ;;; ret (lines c).

(** [cell == player_id], also [state.get_possession() == player_id]: an
    empty cell (no possession) equals no player id. *)
Definition py_eq (v : option Z) (player_id : Z) : bool :=
  match v with
  | Some q => q =? player_id
  | None => false
  end.

(** ** The global names of the module

    Line 3 imports [math] and line 4 the modules [discrete_soccer] and
    [connect_four], each under its own name; the [def]s of lines 6 and 47
    then bind the names [soccer] and [connect_four] to the two evaluators.
    A binding replaces an earlier one of the same name, and a name in a
    function body is looked up when the body runs. *)

Inductive pyvalue : Type :=
| ModuleValue (name : string)
| FunctionValue (name : string).

Definition globals : Type := list (string * pyvalue).

Definition bind_global (name : string) (v : pyvalue) (g : globals) : globals :=
  (name, v) :: g.

Fixpoint lookup_global (name : string) (g : globals) : option pyvalue :=
  match g with
  | [] => None
  | (n, v) :: g' => if String.eqb n name then Some v else lookup_global name g'
  end.

(** The globals once the module has been executed, the latest binding
    first: lines 47, 6, 4, 4 and 3. *)
Definition module_globals : globals :=
  bind_global "connect_four" (FunctionValue "connect_four")
    (bind_global "soccer" (FunctionValue "soccer")
       (bind_global "connect_four" (ModuleValue "connect_four")
          (bind_global "discrete_soccer" (ModuleValue "discrete_soccer")
             (bind_global "math" (ModuleValue "math") [])))).

(** [name.attr] where [attr] is a class of a game module: a module has
    it, a function object has no such attribute. *)
Definition class_of (name attr : string) : M unit :=
  match lookup_global name module_globals with
  | Some (ModuleValue _) => ret tt
  | Some (FunctionValue _) =>
      raise (AttributeError
               (String.append "'function' object has no attribute '"
                  (String.append attr "'")))
  | None =>
      raise (NameError
               (String.append "name '" (String.append name "' is not defined")))
  end.

(** ** [connect_four] *)

(** The nested function [score_alignment(count, opponent_count)]. *)
Definition score_alignment (count opponent_count : Z) : Z :=
  if count =? 4 then 1000
  else if (count =? 3) && (opponent_count =? 0) then 50
  else if (count =? 2) && (opponent_count =? 0) then 10
  else if (count =? 3) && (opponent_count =? 1) then 5
  else if (count =? 2) && (opponent_count =? 1) then 1
  else 0.

Definition call_score_alignment (count opponent_count : Z) : M Z :=
  emit (EvScoreAlignment count opponent_count) ;;;
  ret (score_alignment count opponent_count).

(** [sum(1 for cell in line if cell == who)] *)
Definition count_cells (who : Z) (l : line) : Z :=
  fold_right Z.add 0 (map (fun _ => 1) (filter (fun c => py_eq c who) l)).

(** The body of the loop over the lines. *)
Definition connect_four_body (player_id opponent_id : Z) (score : Z) (l : line)
  : M Z :=
  let player_count := count_cells player_id l in
  let opponent_count := count_cells opponent_id l in
  if (player_count >? 0) && (opponent_count =? 0) then
    v <- call_score_alignment player_count opponent_count ;;
    ret (score + v)
  else if (opponent_count >? 0) && (player_count =? 0) then
    v <- call_score_alignment opponent_count player_count ;;
    ret (score - v)
  else ret score.

(** Lines 82 to 96, the scoring that follows the type check. *)
Definition connect_four_scoring (c : Connect4State) (player_id : Z) : M Z :=
  let score := 0 in
  let opponent_id := 1 - player_id in
  ls <- get_lines c ;;
  for_each ls (connect_four_body player_id opponent_id) score.

(** The function as it runs: line 58 evaluates [connect_four.Connect4State]
    first, with [connect_four] looked up in the globals of the module. *)
Definition connect_four (state : GameState) (player_id : Z) : M Z :=
  class_of "connect_four" "Connect4State" ;;;
  match state with
  | IsConnect4State c => connect_four_scoring c player_id
  | _ => raise VariantMismatch
  end.

(** ** Python floats *)

(** [float(n)] for a Python integer: the nearest binary64 value, ties to
    even; [None] when that is out of range, where Python raises
    [OverflowError]. *)
Definition Z_to_float (n : Z) : option float :=
  match binary_normalize prec emax n 0 false with
  | S754_infinity _ => None
  | sf => Some (SF2Prim sf)
  end.

Definition float_of_int (n : Z) : M float :=
  match Z_to_float n with
  | Some f => ret f
  | None => raise (OverflowError "int too large to convert to float")
  end.

(** [math.sqrt(n)] on an integer argument: the argument is converted to a
    float first; a negative argument is a domain error. *)
Definition math_sqrt (n : Z) : M float :=
  x <- float_of_int n ;;
  if (x <? 0)%float then raise (ValueError "math domain error")
  else ret (PrimFloat.sqrt x).

(** Mixed arithmetic [int op float]: the integer operand is converted. *)
Definition int_mul_float (a : Z) (y : float) : M float :=
  x <- float_of_int a ;; ret (x * y)%float.

Definition int_sub_float (a : Z) (y : float) : M float :=
  x <- float_of_int a ;; ret (x - y)%float.

Definition int_add_float (a : Z) (y : float) : M float :=
  x <- float_of_int a ;; ret (x + y)%float.

(** ** [soccer] *)

Definition soccer (state : GameState) (player_id : Z) : M float :=
  match state with
  | IsSoccerState s =>
      let goal_reward := 1000 in
      let possession_bonus := 50 in
      let distance_penalty := 5 in
      player_goal <- get_goal_position s player_id ;;
      opponent_goal <- get_goal_position s (1 - player_id) ;;
      ball_position <- get_ball_position s ;;
      owner <- get_possession s ;;
      let has_possession := py_eq owner player_id in
      distance_to_goal <-
        math_sqrt ((fst ball_position - fst opponent_goal) ^ 2 +
                   (snd ball_position - snd opponent_goal) ^ 2) ;;
      let score := if has_possession then possession_bonus
                   else - possession_bonus in
      penalty <- int_mul_float distance_penalty distance_to_goal ;;
      bonus <- int_sub_float goal_reward penalty ;;
      int_add_float score bonus
  | _ => raise VariantMismatch
  end.

(** ** What one line contributes

    The loop body of [connect_four] as a pure function of the line: the
    amount added to the score and the calls of [score_alignment] made. *)

Definition line_delta (player_id : Z) (l : line) : Z :=
  let player_count := count_cells player_id l in
  let opponent_count := count_cells (1 - player_id) l in
  if (player_count >? 0) && (opponent_count =? 0) then
    score_alignment player_count opponent_count
  else if (opponent_count >? 0) && (player_count =? 0) then
    - score_alignment opponent_count player_count
  else 0.

Definition line_calls (player_id : Z) (l : line) : trace :=
  let player_count := count_cells player_id l in
  let opponent_count := count_cells (1 - player_id) l in
  if (player_count >? 0) && (opponent_count =? 0) then
    [EvScoreAlignment player_count opponent_count]
  else if (opponent_count >? 0) && (player_count =? 0) then
    [EvScoreAlignment opponent_count player_count]
  else [].

Definition total_delta (player_id : Z) (ls : list line) : Z :=
  fold_right Z.add 0 (map (line_delta player_id) ls).

Definition total_calls (player_id : Z) (ls : list line) : trace :=
  List.concat (map (line_calls player_id) ls).

(** A line with no piece on it. *)
Definition empty_line (l : line) : Prop := Forall (fun c => c = None) l.

(** [isinstance(state, discrete_soccer.SoccerState)] *)
Definition is_soccer_state (state : GameState) : bool :=
  match state with
  | IsSoccerState _ => true
  | _ => false
  end.

(** A line with four pieces of one player. *)
Definition four_in_a_row (who : Z) : line :=
  [Some who; Some who; Some who; Some who].

(** ** The parts of [soccer]

    Names for the pieces of the soccer evaluation that the properties speak
    of. Each is the corresponding part of the body of [soccer]. *)

(** The accessor calls of one evaluation, in the order they are made. *)
Definition soccer_events (player_id : Z) : trace :=
  [EvGoalPosition player_id; EvGoalPosition (1 - player_id);
   EvBallPosition; EvPossession].

(** The integer under the square root. *)
Definition squared_distance (a b : position) : Z :=
  (fst a - fst b) ^ 2 + (snd a - snd b) ^ 2.

(** The straight-line distance as the code computes it. *)
Definition euclidean_distance (a b : position) : M float :=
  math_sqrt (squared_distance a b).

(** The score the evaluation starts from. *)
Definition possession_base (s : SoccerState) (player_id : Z) : Z :=
  if py_eq (possession s) player_id then 50 else - 50.

(** From the distance to the score: [base + (1000 - 5 * distance)], every
    operation a binary64 operation. *)
Definition score_from_distance (base : Z) (distance_to_goal : float) : M float :=
  penalty <- int_mul_float 5 distance_to_goal ;;
  bonus <- int_sub_float 1000 penalty ;;
  int_add_float base bonus.

(** The evaluation after the accessor calls, as a function of the base score
    and of the squared distance between ball and goal. *)
Definition score_of (base n : Z) : M float :=
  distance_to_goal <- math_sqrt n ;;
  score_from_distance base distance_to_goal.

(** The same sum with the additions grouped from the left,
    [(base + 1000) - 5 * distance]. *)
Definition score_left_grouped (base n : Z) : M float :=
  distance_to_goal <- math_sqrt n ;;
  penalty <- int_mul_float 5 distance_to_goal ;;
  int_sub_float (base + 1000) penalty.

(** ** Checks over a range of squared distances *)

(** The scores with and without possession at squared distance [n]. *)
Definition both_scores (n : Z) : result (float * float) :=
  match outcome (math_sqrt n) with
  | Ok d =>
      let bonus := (1000 - 5 * d)%float in
      Ok ((50 + bonus)%float, (-50 + bonus)%float)
  | Raise e => Raise e
  end.

(** The largest squared distance the range check covers: ball and goal at
    most 500 cells apart in each coordinate. *)
Definition pitch_bound : Z := 500000.

(** The rounding allowed on the difference of two scores, [2^-43]. *)
Definition gap_tolerance : float := Eval compute in Z.ldexp 1 (-43).

(** The score with possession is the greater one, and the float difference
    of the two is within the tolerance of 100. *)
Definition gap_ok (cur : float * float) : bool :=
  let (a, b) := cur in
  (b <? a)%float && (abs (a - b - 100) <=? gap_tolerance)%float.

(** Both scores are strictly below those of the squared distance before. *)
Definition below (prev cur : float * float) : bool :=
  (fst cur <? fst prev)%float && (snd cur <? snd prev)%float.

(** One pass over [fuel] consecutive squared distances from [k] on, [prev]
    being the scores at [k - 1]. *)
Fixpoint scan (fuel : nat) (k : Z) (prev : float * float) : bool :=
  match fuel with
  | O => true
  | S fuel' =>
      match both_scores k with
      | Ok cur => gap_ok cur && below prev cur && scan fuel' (k + 1) cur
      | Raise _ => false
      end
  end.

(** ** Concrete states *)

(** A state given by the ball, the goals of players 0 and 1, and the owner
    of the ball. *)
Definition soccer_state (ball goal0 goal1 : position) (owner : option Z)
  : SoccerState :=
  {| goal_position := fun q => if q =? 0 then goal0 else goal1;
     ball_position := ball;
     possession := owner |}.

(** Scenario A seen from player 0: ball at (5,5), opponent goal at (5,0),
    own goal at (5,10), player 0 in possession. *)
Definition scenario_A : SoccerState :=
  soccer_state (5, 5) (5, 10) (5, 0) (Some 0).

(** The ball one cell across and two cells up from the goal of player 1,
    owned by player 0 and by player 1. *)
Definition near_goal_owned : SoccerState :=
  soccer_state (1, 2) (0, 10) (0, 0) (Some 0).

Definition near_goal_lost : SoccerState :=
  soccer_state (1, 2) (0, 10) (0, 0) (Some 1).

(** The ball three cells across and four up from the same goal. *)
Definition midfield_owned : SoccerState :=
  soccer_state (3, 4) (0, 10) (0, 0) (Some 0).

(** Two balls very far from the goal of player 1, the second one cell
    further up than the first. *)
Definition far_ball_closer : SoccerState :=
  soccer_state (125829120, 2) (0, 10) (0, 0) (Some 0).

Definition far_ball_further : SoccerState :=
  soccer_state (125829120, 3) (0, 10) (0, 0) (Some 0).

(** ** Boards *)

(** The piece of the other player in the place of each piece. *)
Definition swap_colours (c : cell) : cell :=
  match c with
  | Some q => Some (1 - q)
  | None => None
  end.

Definition swap_board (ls : list line) : list line :=
  map (map swap_colours) ls.

(** A cell of a board of the two players 0 and 1. *)
Definition standard_cell (c : cell) : Prop :=
  c = None \/ c = Some 0 \/ c = Some 1.

Definition standard_board (ls : list line) : Prop :=
  Forall (Forall standard_cell) ls.

(** The player [who] has no piece on any line. *)
Definition absent (who : Z) (ls : list line) : Prop :=
  Forall (fun l => ~ In (Some who) l) ls.

(** A floating-point datum that is not below zero: its sign bit is clear,
    or it is not a number. *)
Definition not_negative (sf : spec_float) : Prop :=
  match sf with
  | S754_zero s | S754_infinity s | S754_finite s _ _ => s = false
  | S754_nan => True
  end.

(** The offsets from the goal of the opponent to the ball. *)
Definition offset (s : SoccerState) (player_id : Z) : Z * Z :=
  (fst (ball_position s) - fst (goal_position s (1 - player_id)),
   snd (ball_position s) - snd (goal_position s (1 - player_id))).

(** The score at distance zero. *)
Definition score_on_goal (owner : bool) : float :=
  if owner then 1050%float else 950%float.

(** The ball so far from the goal of player 1 that the squared distance,
    [2^1024], has no float. *)
Definition beyond_floats : SoccerState :=
  soccer_state (2 ^ 512, 0) (0, 10) (0, 0) (Some 0).

(** ** Basic facts *)

Lemma body_run (p score : Z) (l : line) (t : trace) :
  connect_four_body p (1 - p) score l t
  = (Ok (score + line_delta p l), t ++ line_calls p l).
Proof.
  unfold connect_four_body, line_delta, line_calls, call_score_alignment.
  destruct ((count_cells p l >? 0) && (count_cells (1 - p) l =? 0)).
  - reflexivity.
  - destruct ((count_cells (1 - p) l >? 0) && (count_cells p l =? 0)).
    + cbv [bind emit ret]. now rewrite Z.add_opp_r.
    + cbv [ret]. now rewrite app_nil_r, Z.add_0_r.
Qed.

Lemma for_each_run (p : Z) (ls : list line) :
  forall (score : Z) (t : trace),
    for_each ls (connect_four_body p (1 - p)) score t
    = (Ok (score + total_delta p ls), t ++ total_calls p ls).
Proof.
  induction ls as [| l ls IH]; intros score t.
  - cbn. unfold ret. now rewrite Z.add_0_r, app_nil_r.
  - cbn [for_each]. unfold bind at 1. rewrite body_run, IH.
    unfold total_delta, total_calls. cbn [map fold_right List.concat].
    rewrite app_assoc. f_equal. f_equal. lia.
Qed.

Lemma scoring_run (c : Connect4State) (p : Z) :
  run (connect_four_scoring c p)
  = (Ok (total_delta p (lines c)), EvLines :: total_calls p (lines c)).
Proof.
  unfold run, connect_four_scoring, get_lines.
  cbv [bind emit ret]. cbn [app]. now rewrite for_each_run.
Qed.

Lemma scoring_outcome (c : Connect4State) (p : Z) :
  outcome (connect_four_scoring c p) = Ok (total_delta p (lines c)).
Proof. unfold outcome. now rewrite scoring_run. Qed.

Lemma connect_four_raises (state : GameState) (p : Z) (t : trace) :
  connect_four state p t = (Raise Connect4StateMissing, t).
Proof. reflexivity. Qed.

Lemma soccer_class_found : class_of "discrete_soccer" "SoccerState" = ret tt.
Proof. reflexivity. Qed.

Lemma count_cells_nonneg (q : Z) (l : line) : 0 <= count_cells q l.
Proof.
  unfold count_cells.
  induction (filter (fun c => py_eq c q) l) as [| c f IH];
    cbn [map fold_right]; lia.
Qed.

Lemma count_cells_cons (q : Z) (c : cell) (l : line) :
  count_cells q (c :: l)
  = (if py_eq c q then 1 else 0) + count_cells q l.
Proof.
  unfold count_cells. cbn [filter].
  destruct (py_eq c q); cbn [map fold_right]; lia.
Qed.

Lemma count_cells_In (q : Z) (l : line) :
  In (Some q) l -> 0 < count_cells q l.
Proof.
  induction l as [| c l IH]; intros H.
  - destruct H.
  - rewrite count_cells_cons. pose proof (count_cells_nonneg q l).
    destruct H as [-> | H].
    + cbn. rewrite Z.eqb_refl. lia.
    + specialize (IH H). destruct (py_eq c q); lia.
Qed.

Lemma count_cells_empty_line (q : Z) (l : line) :
  empty_line l -> count_cells q l = 0.
Proof.
  induction 1 as [| c l Hc _ IH].
  - reflexivity.
  - rewrite count_cells_cons, IH. now subst c.
Qed.

Lemma count_cells_perm (q : Z) (l l' : line) :
  Permutation l l' -> count_cells q l = count_cells q l'.
Proof.
  induction 1 as [| c l l' _ IH | c d l | l l' l'' _ IH1 _ IH2].
  - reflexivity.
  - now rewrite !count_cells_cons, IH.
  - rewrite !count_cells_cons. lia.
  - congruence.
Qed.

Lemma total_delta_app (p : Z) (ls1 ls2 : list line) :
  total_delta p (ls1 ++ ls2) = total_delta p ls1 + total_delta p ls2.
Proof.
  unfold total_delta. induction ls1 as [| l ls1 IH].
  - reflexivity.
  - cbn [app map fold_right]. rewrite IH. lia.
Qed.

Lemma total_calls_app (p : Z) (ls1 ls2 : list line) :
  total_calls p (ls1 ++ ls2) = total_calls p ls1 ++ total_calls p ls2.
Proof. unfold total_calls. now rewrite map_app, concat_app. Qed.

Lemma line_delta_empty (p : Z) (l : line) : empty_line l -> line_delta p l = 0.
Proof.
  intros H. unfold line_delta. now rewrite !count_cells_empty_line.
Qed.

Lemma total_delta_empty (p : Z) (ls : list line) :
  Forall empty_line ls -> total_delta p ls = 0.
Proof.
  induction 1 as [| l ls Hl _ IH]; [reflexivity |].
  unfold total_delta in *. cbn [map fold_right].
  now rewrite IH, line_delta_empty.
Qed.

Lemma line_delta_mixed (p : Z) (l : line) :
  In (Some p) l -> In (Some (1 - p)) l ->
  line_delta p l = 0 /\ line_calls p l = [].
Proof.
  intros Hp Ho. apply count_cells_In in Hp, Ho.
  unfold line_delta, line_calls.
  replace (count_cells (1 - p) l =? 0) with false by (symmetry; apply Z.eqb_neq; lia).
  replace (count_cells p l =? 0) with false by (symmetry; apply Z.eqb_neq; lia).
  now rewrite !andb_false_r.
Qed.

Lemma line_delta_opponent (p : Z) (l : line) :
  line_delta (1 - p) l = - line_delta p l.
Proof.
  unfold line_delta. replace (1 - (1 - p)) with p by lia.
  pose proof (count_cells_nonneg p l) as Hp.
  pose proof (count_cells_nonneg (1 - p) l) as Ho.
  destruct (Z.eqb_spec (count_cells p l) 0) as [Ep | Ep];
    destruct (Z.eqb_spec (count_cells (1 - p) l) 0) as [Eo | Eo];
    destruct (Z.gtb_spec (count_cells p l) 0);
    destruct (Z.gtb_spec (count_cells (1 - p) l) 0);
    cbn [andb]; lia.
Qed.

Lemma total_delta_opponent (p : Z) (ls : list line) :
  total_delta (1 - p) ls = - total_delta p ls.
Proof.
  unfold total_delta. induction ls as [| l ls IH]; cbn [map fold_right].
  - reflexivity.
  - rewrite IH, line_delta_opponent. lia.
Qed.

Lemma line_calls_unblocked (p : Z) (l : line) (count opponent_count : Z) :
  In (EvScoreAlignment count opponent_count) (line_calls p l) ->
  opponent_count = 0.
Proof.
  unfold line_calls.
  destruct ((count_cells p l >? 0) && (count_cells (1 - p) l =? 0)) eqn:E1.
  - intros [H | []]. injection H as _ <-.
    apply andb_true_iff in E1. now apply Z.eqb_eq.
  - destruct ((count_cells (1 - p) l >? 0) && (count_cells p l =? 0)) eqn:E2.
    + intros [H | []]. injection H as _ <-.
      apply andb_true_iff in E2. now apply Z.eqb_eq.
    + intros [].
Qed.

Lemma line_delta_four (p : Z) : line_delta p (four_in_a_row (1 - p)) = - 1000.
Proof.
  unfold line_delta, four_in_a_row.
  rewrite !count_cells_cons. cbn [py_eq].
  replace (1 - p =? p) with false by (symmetry; apply Z.eqb_neq; lia).
  rewrite Z.eqb_refl. reflexivity.
Qed.

(** ** Properties of [connect_four] *)

(** C2. The line score [score_alignment(count, opponent_count)] is 1000
    for a count of 4 whatever the opponent count, 50 for 3 and 0, 10 for 2
    and 0, 5 for 3 and 1, 1 for 2 and 1, and 0 in every other case. *)
Theorem score_alignment_table (count opponent_count : Z) :
  (count = 4 -> score_alignment count opponent_count = 1000) /\
  (count = 3 -> opponent_count = 0 ->
   score_alignment count opponent_count = 50) /\
  (count = 2 -> opponent_count = 0 ->
   score_alignment count opponent_count = 10) /\
  (count = 3 -> opponent_count = 1 ->
   score_alignment count opponent_count = 5) /\
  (count = 2 -> opponent_count = 1 ->
   score_alignment count opponent_count = 1) /\
  (count <> 4 ->
   ~ ((count = 3 \/ count = 2) /\ (opponent_count = 0 \/ opponent_count = 1)) ->
   score_alignment count opponent_count = 0).
Proof.
  unfold score_alignment.
  repeat split; intros; subst; try reflexivity.
  destruct (Z.eqb_spec count 4); [contradiction |].
  destruct (Z.eqb_spec count 3), (Z.eqb_spec count 2),
    (Z.eqb_spec opponent_count 0), (Z.eqb_spec opponent_count 1);
    cbn [andb]; try reflexivity; exfalso; tauto.
Qed.

Lemma score_alignment_table_witness :
  score_alignment 4 2 = 1000 /\ score_alignment 3 0 = 50 /\
  score_alignment 2 0 = 10 /\ score_alignment 3 1 = 5 /\
  score_alignment 2 1 = 1 /\ score_alignment 1 0 = 0 /\
  score_alignment 3 2 = 0.
Proof.
  refine (conj _ (conj _ (conj _ (conj _ (conj _ (conj _ _)))))).
  - apply (score_alignment_table 4 2). reflexivity.
  - apply (score_alignment_table 3 0); reflexivity.
  - apply (score_alignment_table 2 0); reflexivity.
  - apply (score_alignment_table 3 1); reflexivity.
  - apply (score_alignment_table 2 1); reflexivity.
  - apply (score_alignment_table 1 0); lia.
  - apply (score_alignment_table 3 2); lia.
Defined.

(** C3. On a state with one four-in-a-row of the opponent [1 - p] among
    other lines, empty or not, [connect_four] returns no score, so not
    -1000 either: it raises [AttributeError] at the type check of line 58,
    before the lines are read. *)
Theorem connect_four_opponent_four_raises (p : Z) (before after : list line) :
  run (connect_four
         (IsConnect4State
            {| lines := before ++ four_in_a_row (1 - p) :: after |}) p)
  = (Raise Connect4StateMissing, []).
Proof. unfold run. apply connect_four_raises. Qed.

(** C4. On a state with a mixed line and on the state without it
    [connect_four] returns no total to compare: both calls raise
    [AttributeError] at line 58. *)
Theorem connect_four_mixed_line_raises (p : Z) (l : line) (ls : list line) :
  outcome (connect_four (IsConnect4State {| lines := ls ++ [l] |}) p)
  = Raise Connect4StateMissing /\
  outcome (connect_four (IsConnect4State {| lines := ls |}) p)
  = Raise Connect4StateMissing.
Proof. unfold outcome, run. now rewrite !connect_four_raises. Qed.


(** C10. On a connect-four state [connect_four] returns a score neither
    for [p] nor for [1 - p]: both calls raise [AttributeError] at line 58,
    so there is no pair of results of which one negates the other. *)
Theorem connect_four_raises_for_both_players (c : Connect4State) (p : Z) :
  outcome (connect_four (IsConnect4State c) p)
  = Raise Connect4StateMissing /\
  outcome (connect_four (IsConnect4State c) (1 - p))
  = Raise Connect4StateMissing.
Proof. unfold outcome, run. now rewrite !connect_four_raises. Qed.

(** ** Rejection of a state of the wrong game *)

(** C5. Called on anything that is not a soccer state, [soccer] raises the
    variant-mismatch error with the trace left as it was: no accessor of the
    state has been called. [connect_four] does not get that far: on every
    argument, a connect-four state or not, it raises [AttributeError] at
    the lookup of line 58, before the variant-mismatch error of line 59 and
    before any accessor. *)
Theorem variant_check_outcomes (state : GameState) (player_id : Z) :
  (is_soccer_state state = false ->
   forall t, soccer state player_id t = (Raise VariantMismatch, t)) /\
  (forall t,
     connect_four state player_id t = (Raise Connect4StateMissing, t)).
Proof.
  split.
  - intros H t. destruct state; try discriminate H; reflexivity.
  - apply connect_four_raises.
Qed.

Lemma variant_check_outcomes_witness :
  run (soccer (IsConnect4State {| lines := [four_in_a_row 0] |}) 0)
  = (Raise VariantMismatch, []) /\
  run (connect_four
         (IsSoccerState {| goal_position := fun q => (5, 10 * q);
                           ball_position := (5, 5);
                           possession := Some 1 |}) 1)
  = (Raise Connect4StateMissing, []).
Proof.
  split.
  - apply (proj1 (variant_check_outcomes
                    (IsConnect4State {| lines := [four_in_a_row 0] |}) 0)).
    reflexivity.
  - apply (proj2 (variant_check_outcomes
                    (IsSoccerState {| goal_position := fun q => (5, 10 * q);
                                      ball_position := (5, 5);
                                      possession := Some 1 |}) 1)).
Defined.

(** ** Basic facts about [soccer] *)

Lemma float_of_int_pure (n : Z) (t : trace) :
  float_of_int n t = (outcome (float_of_int n), t).
Proof.
  unfold outcome, run, float_of_int. now destruct (Z_to_float n).
Qed.

Lemma math_sqrt_pure (n : Z) (t : trace) :
  math_sqrt n t = (outcome (math_sqrt n), t).
Proof.
  unfold outcome, run, math_sqrt, float_of_int, bind, ret, raise.
  destruct (Z_to_float n) as [x |]; [| reflexivity].
  now destruct (x <? 0)%float.
Qed.

Lemma score_from_distance_pure (base : Z) (d : float) (t : trace) :
  score_from_distance base d t = (outcome (score_from_distance base d), t).
Proof.
  unfold outcome, run, score_from_distance, int_mul_float, int_sub_float,
    int_add_float, float_of_int, bind, ret, raise.
  destruct (Z_to_float 5); [| reflexivity].
  destruct (Z_to_float 1000); [| reflexivity].
  now destruct (Z_to_float base).
Qed.

Lemma score_of_pure (base n : Z) (t : trace) :
  score_of base n t = (outcome (score_of base n), t).
Proof.
  unfold outcome, run, score_of, bind.
  rewrite (math_sqrt_pure n t), (math_sqrt_pure n []).
  destruct (outcome (math_sqrt n)) as [d | e]; [| reflexivity].
  now rewrite (score_from_distance_pure base d t),
    (score_from_distance_pure base d []).
Qed.

Lemma soccer_run (s : SoccerState) (p : Z) (t : trace) :
  soccer (IsSoccerState s) p t
  = score_of (possession_base s p)
      (squared_distance (ball_position s) (goal_position s (1 - p)))
      (t ++ soccer_events p).
Proof.
  unfold soccer, get_goal_position, get_ball_position, get_possession.
  cbv [bind emit ret]. rewrite <- !app_assoc. reflexivity.
Qed.

Lemma soccer_outcome (s : SoccerState) (p : Z) :
  outcome (soccer (IsSoccerState s) p)
  = outcome (score_of (possession_base s p)
               (squared_distance (ball_position s) (goal_position s (1 - p)))).
Proof.
  unfold outcome at 1, run. now rewrite soccer_run, score_of_pure.
Qed.

Lemma soccer_trace (s : SoccerState) (p : Z) :
  events (soccer (IsSoccerState s) p) = soccer_events p.
Proof.
  unfold events, run. now rewrite soccer_run, score_of_pure.
Qed.

Lemma Z_to_float_5 : Z_to_float 5 = Some 5%float.
Proof. reflexivity. Qed.

Lemma Z_to_float_1000 : Z_to_float 1000 = Some 1000%float.
Proof. reflexivity. Qed.

Lemma Z_to_float_50 : Z_to_float 50 = Some 50%float.
Proof. reflexivity. Qed.

Lemma Z_to_float_minus_50 : Z_to_float (- 50) = Some (-50)%float.
Proof. reflexivity. Qed.

Lemma score_from_distance_owner (d : float) :
  outcome (score_from_distance 50 d) = Ok (50 + (1000 - 5 * d))%float.
Proof.
  unfold outcome, run, score_from_distance, int_mul_float, int_sub_float,
    int_add_float, float_of_int, bind, ret.
  now rewrite Z_to_float_5, Z_to_float_1000, Z_to_float_50.
Qed.

Lemma score_from_distance_other (d : float) :
  outcome (score_from_distance (- 50) d) = Ok (-50 + (1000 - 5 * d))%float.
Proof.
  unfold outcome, run, score_from_distance, int_mul_float, int_sub_float,
    int_add_float, float_of_int, bind, ret.
  now rewrite Z_to_float_5, Z_to_float_1000, Z_to_float_minus_50.
Qed.

Lemma score_of_distance (base n : Z) :
  outcome (score_of base n)
  = match outcome (math_sqrt n) with
    | Ok d => outcome (score_from_distance base d)
    | Raise e => Raise e
    end.
Proof.
  unfold outcome at 1, run, score_of, bind. rewrite math_sqrt_pure.
  now destruct (outcome (math_sqrt n)).
Qed.

Lemma squared_distance_nonneg (a b : position) : 0 <= squared_distance a b.
Proof.
  unfold squared_distance. rewrite !Z.pow_2_r.
  pose proof (Z.square_nonneg (fst a - fst b)).
  pose proof (Z.square_nonneg (snd a - snd b)). lia.
Qed.

(** ** Properties of [soccer] *)

(** C1. On every soccer state, [soccer] returns the base score, 50 when
    the player is in possession and -50 otherwise, plus 1000 minus 5 times
    the Euclidean distance from the ball to the goal of the opponent, the sum
    taken as the code groups it, [base + (1000 - 5 * distance)]; with the
    ball at (5,5), the goal of the opponent at (5,0) and the player in
    possession the result is 1025. *)
Theorem soccer_formula (s : SoccerState) (p : Z) :
  outcome (soccer (IsSoccerState s) p)
  = match outcome (euclidean_distance (ball_position s)
                     (goal_position s (1 - p))) with
    | Ok distance =>
        Ok ((if py_eq (possession s) p then 50 else -50)
            + (1000 - 5 * distance))%float
    | Raise e => Raise e
    end
  /\ (ball_position s = (5, 5) -> goal_position s (1 - p) = (5, 0) ->
      possession s = Some p ->
      outcome (soccer (IsSoccerState s) p) = Ok 1025%float).
Proof.
  split.
  - rewrite soccer_outcome, score_of_distance. unfold euclidean_distance.
    destruct (outcome (math_sqrt _)) as [d | e]; [| reflexivity].
    unfold possession_base. destruct (py_eq (possession s) p).
    + apply score_from_distance_owner.
    + apply score_from_distance_other.
  - intros Hball Hgoal Hown. rewrite soccer_outcome.
    unfold possession_base. rewrite Hball, Hgoal, Hown.
    cbn [py_eq]. rewrite Z.eqb_refl. reflexivity.
Qed.

Lemma soccer_formula_witness :
  outcome (soccer (IsSoccerState scenario_A) 0) = Ok 1025%float.
Proof.
  apply (proj2 (soccer_formula scenario_A 0)); reflexivity.
Defined.

(** The grouping of the sum matters in the last bit: two cells across and
    four up from the goal, in possession, [50 + (1000 - 5 * distance)] and
    [(50 + 1000) - 5 * distance] are different floats. *)
Remark grouping_is_visible :
  outcome (score_of 50 20) = Ok 0x1.00e8ea9f60838p+10%float /\
  outcome (score_left_grouped 50 20) = Ok 0x1.00e8ea9f60839p+10%float /\
  (0x1.00e8ea9f60838p+10 =? 0x1.00e8ea9f60839p+10)%float = false.
Proof. repeat split. Qed.

(** C8. The score does not depend on the goal of the perspective player:
    two soccer states with the same ball position, the same possession and
    the same goal of the opponent [1 - p] are evaluated alike for [p],
    whatever their goals of [p] are. *)
Theorem soccer_ignores_own_goal (p : Z) (s1 s2 : SoccerState) :
  ball_position s1 = ball_position s2 ->
  possession s1 = possession s2 ->
  goal_position s1 (1 - p) = goal_position s2 (1 - p) ->
  run (soccer (IsSoccerState s1) p) = run (soccer (IsSoccerState s2) p).
Proof.
  intros Hball Hown Hgoal. unfold run. rewrite !soccer_run.
  unfold possession_base. now rewrite Hball, Hown, Hgoal.
Qed.

Lemma soccer_ignores_own_goal_witness :
  run (soccer (IsSoccerState (soccer_state (5, 5) (5, 10) (5, 0) (Some 0))) 0)
  = run (soccer (IsSoccerState (soccer_state (5, 5) (-3, 77) (5, 0) (Some 0))) 0).
Proof.
  apply (soccer_ignores_own_goal 0); reflexivity.
Defined.

(** ** The order of floats and the range checks *)

Lemma SFltb_trans (x y z : spec_float) :
  SFltb x y = true -> SFltb y z = true -> SFltb x z = true.
Proof.
  unfold SFltb, SFcompare.
  destruct x as [sx | sx | | sx mx ex], y as [sy | sy | | sy my ey],
    z as [sz | sz | | sz mz ez];
    try discriminate; try reflexivity;
    repeat match goal with s : bool |- _ => destruct s end;
    try discriminate; try reflexivity;
    change (Pos.compare_cont Eq) with Pos.compare;
    repeat match goal with
      | |- context [Z.compare ?a ?b] => destruct (Z.compare_spec a b)
      | |- context [Pos.compare ?a ?b] => destruct (Pos.compare_spec a b)
      end;
    cbn [CompOpp]; try discriminate; try reflexivity; intros _ _; exfalso; lia.
Qed.

Lemma float_ltb_trans (x y z : float) :
  (x <? y)%float = true -> (y <? z)%float = true -> (x <? z)%float = true.
Proof. rewrite !ltb_spec. apply SFltb_trans. Qed.

Lemma both_scores_spec (n : Z) (a b : float) :
  both_scores n = Ok (a, b) ->
  outcome (score_of 50 n) = Ok a /\ outcome (score_of (- 50) n) = Ok b.
Proof.
  unfold both_scores. rewrite !score_of_distance.
  destruct (outcome (math_sqrt n)) as [d | e]; [| discriminate].
  rewrite score_from_distance_owner, score_from_distance_other.
  intros H. injection H as <- <-. now split.
Qed.

Lemma scan_gap (fuel : nat) :
  forall k prev, scan fuel k prev = true ->
  forall n, k <= n < k + Z.of_nat fuel ->
  exists cur, both_scores n = Ok cur /\ gap_ok cur = true.
Proof.
  induction fuel as [| fuel IH]; intros k prev H n Hn.
  - cbn in Hn. lia.
  - cbn [scan] in H. destruct (both_scores k) as [cur |] eqn:Ek;
      [| discriminate].
    apply andb_true_iff in H. destruct H as [H Hrest].
    apply andb_true_iff in H. destruct H as [Hgap _].
    destruct (Z.eq_dec n k) as [-> | Hne].
    + now exists cur.
    + apply (IH (k + 1) cur Hrest). lia.
Qed.

Lemma scan_below (fuel : nat) :
  forall k prev, scan fuel k prev = true ->
  forall n, k <= n -> n + 1 < k + Z.of_nat fuel ->
  exists c1 c2,
    both_scores n = Ok c1 /\ both_scores (n + 1) = Ok c2 /\
    below c1 c2 = true.
Proof.
  induction fuel as [| fuel IH]; intros k prev H n Hk Hn.
  - cbn in Hn. lia.
  - cbn [scan] in H. destruct (both_scores k) as [cur |] eqn:Ek;
      [| discriminate].
    apply andb_true_iff in H. destruct H as [_ Hrest].
    destruct (Z.eq_dec n k) as [-> | Hne].
    + destruct fuel as [| fuel']; [cbn in Hn; lia |].
      cbn [scan] in Hrest.
      destruct (both_scores (k + 1)) as [next |] eqn:Ek1; [| discriminate].
      apply andb_true_iff in Hrest. destruct Hrest as [H _].
      apply andb_true_iff in H. destruct H as [_ Hbelow].
      now exists cur, next.
    + apply (IH (k + 1) cur Hrest); lia.
Qed.

Lemma range_checked :
  scan (Z.to_nat (pitch_bound + 1)) 0 (infinity, infinity) = true.
Proof. vm_compute. reflexivity. Qed.

Lemma possession_gap_in_range (n : Z) :
  0 <= n <= pitch_bound ->
  exists cur, both_scores n = Ok cur /\ gap_ok cur = true.
Proof.
  intros Hn. apply (scan_gap _ 0 _ range_checked).
  rewrite Z2Nat.id by (unfold pitch_bound; lia). lia.
Qed.

Lemma next_scores_less (n : Z) :
  0 <= n < pitch_bound ->
  exists c1 c2,
    both_scores n = Ok c1 /\ both_scores (n + 1) = Ok c2 /\
    below c1 c2 = true.
Proof.
  intros Hn. apply (scan_below _ 0 _ range_checked); [lia |].
  rewrite Z2Nat.id by (unfold pitch_bound; lia). lia.
Qed.

(** Within the range, a strictly smaller squared distance gives strictly
    greater scores, with and without possession. *)
Lemma closer_scores_more_chain (k : nat) :
  forall n1, 0 <= n1 -> n1 + 1 + Z.of_nat k <= pitch_bound ->
  exists c1 c2,
    both_scores n1 = Ok c1 /\
    both_scores (n1 + 1 + Z.of_nat k) = Ok c2 /\
    below c1 c2 = true.
Proof.
  induction k as [| k IH]; intros n1 H0 Hle.
  - rewrite Z.add_0_r. apply next_scores_less. cbn in Hle. lia.
  - destruct (IH n1 H0 ltac:(lia)) as [c1 [cm [H1 [Hm Hlt]]]].
    destruct (next_scores_less (n1 + 1 + Z.of_nat k) ltac:(lia))
      as [cm' [c2 [Hm' [H2 Hlt']]]].
    rewrite Hm in Hm'. injection Hm' as <-.
    replace (n1 + 1 + Z.of_nat (S k)) with (n1 + 1 + Z.of_nat k + 1) by lia.
    exists c1, c2. repeat split; try assumption.
    unfold below in *.
    apply andb_true_iff in Hlt, Hlt'. apply andb_true_iff.
    destruct Hlt, Hlt'. split; eapply float_ltb_trans; eassumption.
Qed.

(** ** Possession and distance *)

(** One cell across and two up from the goal, the score with possession
    and the score without differ by [100 - 2^-43], not by 100: the scores
    are 1038.819660112501 and 938.8196601125011, and Python prints their
    difference as 99.99999999999989. The float subtraction is exact there:
    with both scores written as integer multiples of [2^-43], the
    difference is one short of [100 * 2^43]. *)
Lemma possession_gap_not_100 :
  exists a b : float,
    outcome (soccer (IsSoccerState near_goal_owned) 0) = Ok a /\
    outcome (soccer (IsSoccerState near_goal_lost) 0) = Ok b /\
    (a - b =? 100)%float = false /\
    (a - b)%float = 0x1.8fffffffffff8p+6%float /\
    Prim2SF a = S754_finite false 4568777181824028 (-42) /\
    Prim2SF b = S754_finite false 8257945061427257 (-43) /\
    2 * 4568777181824028 - 8257945061427257 = 100 * 2 ^ 43 - 1.
Proof.
  exists 0x1.03b4754fb041cp+10%float, 0x1.d568ea9f60839p+9%float.
  repeat split.
Qed.

(** C6, amended. Take two soccer states with the same ball position and
    the same goal of the opponent [1 - p], the ball owned by [p] in the first
    and by [1 - p] in the second, and the squared distance from the ball to
    that goal at most [pitch_bound]. Then both evaluations for [p] return,
    the first score is strictly greater than the second, and their
    difference, taken in floats, is within [2^-43] of 100. *)
Theorem possession_gap (p : Z) (s1 s2 : SoccerState) :
  ball_position s1 = ball_position s2 ->
  goal_position s1 (1 - p) = goal_position s2 (1 - p) ->
  possession s1 = Some p ->
  possession s2 = Some (1 - p) ->
  squared_distance (ball_position s1) (goal_position s1 (1 - p))
    <= pitch_bound ->
  exists a b : float,
    outcome (soccer (IsSoccerState s1) p) = Ok a /\
    outcome (soccer (IsSoccerState s2) p) = Ok b /\
    (b <? a)%float = true /\
    (abs (a - b - 100) <=? gap_tolerance)%float = true.
Proof.
  intros Hball Hgoal Hown Hlost Hn.
  rewrite !soccer_outcome. unfold possession_base.
  rewrite <- Hball, <- Hgoal, Hown, Hlost. cbn [py_eq].
  rewrite Z.eqb_refl.
  replace (1 - p =? p) with false by (symmetry; apply Z.eqb_neq; lia).
  pose proof (squared_distance_nonneg (ball_position s1)
                (goal_position s1 (1 - p))) as H0.
  destruct (possession_gap_in_range _ (conj H0 Hn)) as [[a b] [Hcur Hgap]].
  apply both_scores_spec in Hcur. destruct Hcur as [Ha Hb].
  unfold gap_ok in Hgap. apply andb_true_iff in Hgap.
  exists a, b. tauto.
Qed.

Lemma possession_gap_witness :
  exists a b : float,
    outcome (soccer (IsSoccerState near_goal_owned) 0) = Ok a /\
    outcome (soccer (IsSoccerState near_goal_lost) 0) = Ok b /\
    (b <? a)%float = true /\
    (abs (a - b - 100) <=? gap_tolerance)%float = true.
Proof.
  apply (possession_gap 0 near_goal_owned near_goal_lost);
    try reflexivity.
  vm_compute. discriminate.
Defined.

(** Very far from the goal, a ball that is strictly closer, by the exact
    squared distance and by the computed distance alike, does not score
    more: the distances are 125829120.00000001 and 125829120.00000003,
    five times either rounds to the same float, and both scores are
    -629144550.0000001. *)
Lemma far_balls_score_alike :
  (squared_distance (ball_position far_ball_closer)
     (goal_position far_ball_closer (1 - 0))
   <? squared_distance (ball_position far_ball_further)
        (goal_position far_ball_further (1 - 0))) = true /\
  exists d1 d2 a : float,
    outcome (euclidean_distance (ball_position far_ball_closer)
               (goal_position far_ball_closer (1 - 0))) = Ok d1 /\
    outcome (euclidean_distance (ball_position far_ball_further)
               (goal_position far_ball_further (1 - 0))) = Ok d2 /\
    (d1 <? d2)%float = true /\
    outcome (soccer (IsSoccerState far_ball_closer) 0) = Ok a /\
    outcome (soccer (IsSoccerState far_ball_further) 0) = Ok a /\
    (a <? a)%float = false.
Proof.
  split; [reflexivity |].
  exists 0x1.e000000000001p+26%float, 0x1.e000000000002p+26%float,
    (-0x1.2bffdf3000001p+29)%float.
  repeat split.
Qed.

(** C7, amended. Take two soccer states with the same possession and the
    same goal of the opponent [1 - p], the ball strictly closer to that goal
    in the first than in the second, and the squared distance in the second
    at most [pitch_bound]. Then both evaluations for [p] return and the
    first score is strictly greater than the second. *)
Theorem closer_ball_scores_more (p : Z) (s1 s2 : SoccerState) :
  possession s1 = possession s2 ->
  goal_position s1 (1 - p) = goal_position s2 (1 - p) ->
  squared_distance (ball_position s1) (goal_position s1 (1 - p))
    < squared_distance (ball_position s2) (goal_position s2 (1 - p)) ->
  squared_distance (ball_position s2) (goal_position s2 (1 - p))
    <= pitch_bound ->
  exists a b : float,
    outcome (soccer (IsSoccerState s1) p) = Ok a /\
    outcome (soccer (IsSoccerState s2) p) = Ok b /\
    (b <? a)%float = true.
Proof.
  intros Hown Hgoal Hlt Hle.
  rewrite !soccer_outcome. unfold possession_base. rewrite <- Hown.
  pose proof (squared_distance_nonneg (ball_position s1)
                (goal_position s1 (1 - p))) as H0.
  set (n1 := squared_distance (ball_position s1) (goal_position s1 (1 - p))) in *.
  set (n2 := squared_distance (ball_position s2) (goal_position s2 (1 - p))) in *.
  destruct (closer_scores_more_chain (Z.to_nat (n2 - n1 - 1)) n1 H0)
    as [[a1 b1] [[a2 b2] [H1 [H2 Hbelow]]]]; [rewrite Z2Nat.id; lia |].
  replace (n1 + 1 + Z.of_nat (Z.to_nat (n2 - n1 - 1))) with n2 in H2
    by (rewrite Z2Nat.id; lia).
  apply both_scores_spec in H1, H2. destruct H1 as [Ha1 Hb1], H2 as [Ha2 Hb2].
  unfold below in Hbelow. cbn [fst snd] in Hbelow.
  apply andb_true_iff in Hbelow.
  destruct (py_eq (possession s1) p).
  - exists a1, a2. tauto.
  - exists b1, b2. tauto.
Qed.

Lemma closer_ball_scores_more_witness :
  exists a b : float,
    outcome (soccer (IsSoccerState near_goal_owned) 0) = Ok a /\
    outcome (soccer (IsSoccerState midfield_owned) 0) = Ok b /\
    (b <? a)%float = true.
Proof.
  apply (closer_ball_scores_more 0 near_goal_owned midfield_owned).
  - reflexivity.
  - reflexivity.
  - reflexivity.
  - vm_compute. discriminate.
Defined.

(** ** More facts about the lines *)

Lemma score_alignment_range (count opponent_count : Z) :
  0 <= score_alignment count opponent_count <= 1000.
Proof.
  unfold score_alignment.
  destruct (count =? 4); [lia |].
  destruct ((count =? 3) && (opponent_count =? 0)); [lia |].
  destruct ((count =? 2) && (opponent_count =? 0)); [lia |].
  destruct ((count =? 3) && (opponent_count =? 1)); [lia |].
  destruct ((count =? 2) && (opponent_count =? 1)); lia.
Qed.

Lemma line_delta_range (p : Z) (l : line) : - 1000 <= line_delta p l <= 1000.
Proof.
  unfold line_delta.
  pose proof (score_alignment_range (count_cells p l) (count_cells (1 - p) l)).
  pose proof (score_alignment_range (count_cells (1 - p) l) (count_cells p l)).
  destruct ((count_cells p l >? 0) && (count_cells (1 - p) l =? 0)); [lia |].
  destruct ((count_cells (1 - p) l >? 0) && (count_cells p l =? 0)); lia.
Qed.

Lemma total_delta_cons (p : Z) (l : line) (ls : list line) :
  total_delta p (l :: ls) = line_delta p l + total_delta p ls.
Proof. reflexivity. Qed.

Lemma total_delta_range (p : Z) (ls : list line) :
  - 1000 * Z.of_nat (List.length ls) <= total_delta p ls
  <= 1000 * Z.of_nat (List.length ls).
Proof.
  induction ls as [| l ls IH].
  - cbn. lia.
  - rewrite total_delta_cons. cbn [List.length].
    pose proof (line_delta_range p l). lia.
Qed.

Lemma line_delta_perm (p : Z) (l l' : line) :
  Permutation l l' -> line_delta p l = line_delta p l'.
Proof.
  intros H. unfold line_delta.
  now rewrite (count_cells_perm p l l' H), (count_cells_perm (1 - p) l l' H).
Qed.

Lemma total_delta_perm (p : Z) (ls ls' : list line) :
  Permutation ls ls' -> total_delta p ls = total_delta p ls'.
Proof.
  induction 1 as [| l ls ls' _ IH | l m ls | ls ls' ls'' _ IH1 _ IH2].
  - reflexivity.
  - now rewrite !total_delta_cons, IH.
  - rewrite !total_delta_cons. lia.
  - congruence.
Qed.

Lemma total_delta_cells_perm (p : Z) (ls ls' : list line) :
  Forall2 (@Permutation cell) ls ls' -> total_delta p ls = total_delta p ls'.
Proof.
  induction 1 as [| l l' ls ls' Hl _ IH].
  - reflexivity.
  - now rewrite !total_delta_cons, IH, (line_delta_perm p l l' Hl).
Qed.

Lemma count_cells_swap (q : Z) (l : line) :
  count_cells q (map swap_colours l) = count_cells (1 - q) l.
Proof.
  induction l as [| c l IH]; [reflexivity |].
  cbn [map]. rewrite !count_cells_cons, IH. f_equal.
  destruct c as [r |]; [| reflexivity]. cbn [swap_colours py_eq].
  destruct (Z.eqb_spec (1 - r) q), (Z.eqb_spec r (1 - q)); lia.
Qed.

Lemma line_delta_swap (p : Z) (l : line) :
  line_delta p (map swap_colours l) = line_delta (1 - p) l.
Proof.
  unfold line_delta. rewrite !count_cells_swap.
  now replace (1 - (1 - p)) with p by lia.
Qed.

Lemma total_delta_swap (p : Z) (ls : list line) :
  total_delta p (swap_board ls) = total_delta (1 - p) ls.
Proof.
  unfold swap_board. induction ls as [| l ls IH]; [reflexivity |].
  cbn [map]. now rewrite !total_delta_cons, IH, line_delta_swap.
Qed.

Lemma count_cells_absent (q : Z) (l : line) :
  ~ In (Some q) l -> count_cells q l = 0.
Proof.
  induction l as [| c l IH]; intros H; [reflexivity |].
  rewrite count_cells_cons, IH by (intros Hin; apply H; now right).
  destruct c as [r |]; [| reflexivity]. cbn [py_eq].
  destruct (Z.eqb_spec r q) as [-> | _]; [| reflexivity].
  exfalso. apply H. now left.
Qed.


Lemma count_cells_standard (q : Z) (l : line) :
  Forall standard_cell l -> q <> 0 -> q <> 1 -> count_cells q l = 0.
Proof.
  intros Hl H0 H1. apply count_cells_absent. intros Hin.
  rewrite Forall_forall in Hl. destruct (Hl _ Hin) as [H | [H | H]];
    congruence.
Qed.




Lemma line_delta_unoccupied (p : Z) (l : line) :
  count_cells p l = 0 -> count_cells (1 - p) l = 0 ->
  line_delta p l = 0 /\ line_calls p l = [].
Proof.
  intros Hp Ho. unfold line_delta, line_calls. now rewrite Hp, Ho.
Qed.

Lemma line_delta_own_side (p : Z) (l : line) :
  count_cells (1 - p) l = 0 -> 0 <= line_delta p l.
Proof.
  intros Ho. unfold line_delta. rewrite Ho.
  pose proof (score_alignment_range (count_cells p l) 0).
  destruct ((count_cells p l >? 0) && (0 =? 0)); [lia |].
  cbn [Z.gtb Z.compare andb]. lia.
Qed.

Lemma total_delta_own_side (p : Z) (ls : list line) :
  absent (1 - p) ls -> 0 <= total_delta p ls.
Proof.
  induction 1 as [| l ls Hl _ IH]; [cbn; lia |].
  rewrite total_delta_cons.
  pose proof (line_delta_own_side p l (count_cells_absent _ _ Hl)). lia.
Qed.

(** ** The scoring part of [connect_four]

    What lines 82 to 96 compute from the lines of a state. The raise of
    line 58 keeps [connect_four] from reaching them, whatever it is given;
    the properties below are those of [connect_four_scoring], the scoring
    taken by itself. *)

(** X1. In the scoring part of [connect_four] neither the order of the
    lines nor the order of the cells within a line matters: the scoring
    returns the same on two states whose lines are the same up to reordering
    the cells of each line and then the lines themselves. *)
Theorem scoring_order_irrelevant (p : Z) (ls ls' ls'' : list line) :
  Forall2 (@Permutation cell) ls ls' -> Permutation ls' ls'' ->
  outcome (connect_four_scoring {| lines := ls |} p)
  = outcome (connect_four_scoring {| lines := ls'' |} p).
Proof.
  intros Hcells Hlines. rewrite !scoring_outcome. cbn [lines]. f_equal.
  rewrite (total_delta_cells_perm p ls ls' Hcells).
  now apply total_delta_perm.
Qed.

Lemma scoring_order_irrelevant_witness :
  outcome (connect_four_scoring
             {| lines := [[Some 1; Some 1; None; Some 1];
                          [Some 0; None; Some 0; None]] |} 1)
  = outcome (connect_four_scoring
               {| lines := [[None; Some 0; Some 0; None];
                            [Some 1; Some 1; Some 1; None]] |} 1).
Proof.
  apply (scoring_order_irrelevant 1 _
           [[Some 1; Some 1; Some 1; None]; [None; Some 0; Some 0; None]]).
  - constructor; [| constructor; [| constructor]].
    + do 2 apply perm_skip. apply perm_swap.
    + apply perm_swap.
  - apply perm_swap.
Defined.

(** X2. The scoring part of [connect_four] is additive over the lines: on
    the lines of two states put together it returns the sum of what it
    returns on each, and on a state with no line at all it returns 0 after
    the one call of [get_lines]. *)
Theorem scoring_additive (p : Z) (ls1 ls2 : list line) :
  (exists v1 v2 : Z,
     outcome (connect_four_scoring {| lines := ls1 |} p) = Ok v1 /\
     outcome (connect_four_scoring {| lines := ls2 |} p) = Ok v2 /\
     outcome (connect_four_scoring {| lines := ls1 ++ ls2 |} p)
     = Ok (v1 + v2)) /\
  run (connect_four_scoring {| lines := [] |} p) = (Ok 0, [EvLines]).
Proof.
  split.
  - exists (total_delta p ls1), (total_delta p ls2).
    rewrite !scoring_outcome. cbn [lines].
    now rewrite total_delta_app.
  - now rewrite scoring_run.
Qed.

(** X3. The score the scoring part of [connect_four] returns is bounded by
    the number of lines: in absolute value it is at most 1000 times the
    number of lines of the state. *)
Theorem scoring_bounded (c : Connect4State) (p : Z) :
  exists v : Z,
    outcome (connect_four_scoring c p) = Ok v /\
    Z.abs v <= 1000 * Z.of_nat (List.length (lines c)).
Proof.
  exists (total_delta p (lines c)). split; [apply scoring_outcome |].
  pose proof (total_delta_range p (lines c)). lia.
Qed.

(** X4. In the scoring part of [connect_four], exchanging the pieces of
    the two players on every line negates the score: what is good for [p] on
    a board is as bad for [p] on the board with the colours swapped. *)
Theorem scoring_colour_swap (p : Z) (ls : list line) :
  exists v : Z,
    outcome (connect_four_scoring {| lines := ls |} p) = Ok v /\
    outcome (connect_four_scoring {| lines := swap_board ls |} p)
    = Ok (- v).
Proof.
  exists (total_delta p ls). rewrite !scoring_outcome. cbn [lines].
  now rewrite total_delta_swap, total_delta_opponent.
Qed.

(** X5. The scoring part of [connect_four] takes any player id: for one
    other than 0 and 1, on a board whose cells hold 0, 1 or nothing, it
    returns 0 and never calls [score_alignment]. *)
Theorem scoring_foreign_player (p : Z) (ls : list line) :
  standard_board ls -> p <> 0 -> p <> 1 ->
  run (connect_four_scoring {| lines := ls |} p) = (Ok 0, [EvLines]).
Proof.
  intros Hboard H0 H1. rewrite scoring_run. cbn [lines].
  assert (H : total_delta p ls = 0 /\ total_calls p ls = []).
  { induction Hboard as [| l ls Hl _ IH]; [now split |].
    destruct IH as [IHd IHc].
    destruct (line_delta_unoccupied p l) as [Hd Hc].
    - now apply count_cells_standard.
    - apply count_cells_standard; [assumption | lia | lia].
    - rewrite total_delta_cons, Hd, IHd. unfold total_calls in *.
      cbn [map List.concat]. now rewrite Hc, IHc. }
  destruct H as [-> ->]. reflexivity.
Qed.

Lemma scoring_foreign_player_witness :
  run (connect_four_scoring
         {| lines := [[Some 1; Some 1; Some 1; Some 1];
                      [Some 0; Some 0; None; None]] |} 2)
  = (Ok 0, [EvLines]).
Proof.
  apply (scoring_foreign_player 2).
  - repeat constructor; unfold standard_cell; tauto.
  - discriminate.
  - discriminate.
Defined.



(** X7. A win is seen only at exactly four pieces: a line held by one
    player alone with a single piece, or with more than four, leaves the
    score as it was. *)
Theorem lone_or_overlong_line_scores_nothing (p : Z) (l : line) :
  (count_cells (1 - p) l = 0 /\
   (count_cells p l = 1 \/ 4 < count_cells p l)) \/
  (count_cells p l = 0 /\
   (count_cells (1 - p) l = 1 \/ 4 < count_cells (1 - p) l)) ->
  forall score t, fst (connect_four_body p (1 - p) score l t) = Ok score.
Proof.
  intros H score t. rewrite body_run. cbn [fst]. f_equal.
  unfold line_delta, score_alignment.
  destruct H as [[Ho Hp] | [Hp Ho]].
  - rewrite Ho.
    destruct (Z.gtb_spec (count_cells p l) 0); [| lia]. cbn [andb Z.eqb].
    destruct (Z.eqb_spec (count_cells p l) 4); [lia |].
    destruct (Z.eqb_spec (count_cells p l) 3); [lia |].
    destruct (Z.eqb_spec (count_cells p l) 2); [lia |]. cbn [andb]. lia.
  - rewrite Hp. cbn [Z.gtb Z.compare andb Z.eqb].
    destruct (Z.gtb_spec (count_cells (1 - p) l) 0); [| lia]. cbn [andb].
    destruct (Z.eqb_spec (count_cells (1 - p) l) 4); [lia |].
    destruct (Z.eqb_spec (count_cells (1 - p) l) 3); [lia |].
    destruct (Z.eqb_spec (count_cells (1 - p) l) 2); [lia |]. cbn [andb]. lia.
Qed.

Lemma lone_or_overlong_line_scores_nothing_witness :
  fst (connect_four_body 1 (1 - 1) 7
         [Some 1; Some 1; Some 1; Some 1; Some 1] []) = Ok 7 /\
  fst (connect_four_body 1 (1 - 1) 7 [None; Some 0; None; None] []) = Ok 7.
Proof.
  split.
  - apply (lone_or_overlong_line_scores_nothing 1). left. split.
    + reflexivity.
    + right. reflexivity.
  - apply (lone_or_overlong_line_scores_nothing 1). right. split.
    + reflexivity.
    + left. reflexivity.
Defined.

(** X8. The sign of the score of the scoring part of [connect_four]
    follows who is on the board: when the opponent [1 - p] has no piece on
    any line the score is not negative, and when [p] has none it is not
    positive. *)
Theorem scoring_sign (c : Connect4State) (p : Z) :
  (absent (1 - p) (lines c) ->
   exists v, outcome (connect_four_scoring c p) = Ok v /\ 0 <= v) /\
  (absent p (lines c) ->
   exists v, outcome (connect_four_scoring c p) = Ok v /\ v <= 0).
Proof.
  split; intros H; exists (total_delta p (lines c));
    (split; [apply scoring_outcome |]).
  - now apply total_delta_own_side.
  - replace p with (1 - (1 - p)) in H by lia.
    pose proof (total_delta_own_side (1 - p) (lines c) H) as Hs.
    rewrite total_delta_opponent in Hs. lia.
Qed.

Lemma scoring_sign_witness :
  (exists v,
     outcome (connect_four_scoring
                {| lines := [[Some 1; Some 1; None; None];
                             [None; Some 1; None; None]] |} 1) = Ok v /\
     0 <= v) /\
  (exists v,
     outcome (connect_four_scoring
                {| lines := [[Some 1; Some 1; None; None];
                             [None; Some 1; None; None]] |} 0) = Ok v /\
     v <= 0).
Proof.
  split.
  - apply (proj1 (scoring_sign
                    {| lines := [[Some 1; Some 1; None; None];
                                 [None; Some 1; None; None]] |} 1)).
    repeat constructor; cbn; intuition discriminate.
  - apply (proj2 (scoring_sign
                    {| lines := [[Some 1; Some 1; None; None];
                                 [None; Some 1; None; None]] |} 0)).
    repeat constructor; cbn; intuition discriminate.
Defined.

(** X14. [connect_four] raises [AttributeError] on every call, whatever
    the state and the player, and leaves the trace as it was: the name
    [connect_four] in its body names the function itself, which line 47
    bound over the module imported on line 4, while [discrete_soccer] in the
    body of [soccer] still names its module. *)
Theorem connect_four_always_raises (state : GameState) (p : Z) (t : trace) :
  lookup_global "connect_four" module_globals
  = Some (FunctionValue "connect_four") /\
  lookup_global "discrete_soccer" module_globals
  = Some (ModuleValue "discrete_soccer") /\
  connect_four state p t = (Raise Connect4StateMissing, t).
Proof. repeat split. Qed.

(** X15. The scoring part of [connect_four] gives -1000 for a lost line:
    when one line is a four-in-a-row of the opponent [1 - p] and every other
    line is empty, it returns -1000. *)
Theorem scoring_opponent_four (p : Z) (before after : list line) :
  Forall empty_line before -> Forall empty_line after ->
  outcome (connect_four_scoring
             {| lines := before ++ four_in_a_row (1 - p) :: after |} p)
  = Ok (- 1000).
Proof.
  intros Hb Ha. rewrite scoring_outcome. cbn [lines]. f_equal.
  rewrite total_delta_app. unfold total_delta at 2. cbn [map fold_right].
  fold (total_delta p after).
  now rewrite line_delta_four, !total_delta_empty.
Qed.

Lemma scoring_opponent_four_witness :
  outcome (connect_four_scoring
             {| lines := [[None; None; None; None]]
                         ++ four_in_a_row (1 - 0)
                         :: [[None; None; None; None]; []] |} 0)
  = Ok (- 1000).
Proof.
  apply (scoring_opponent_four 0); repeat constructor.
Defined.

(** X16. A line holding at least one piece of the player [p] and at least
    one of the opponent [1 - p] leaves the running score of the loop as it
    was and calls nothing, in whatever order its cells are; putting such a
    line anywhere among the lines of a state, in particular at the end, does
    not change what the scoring part of [connect_four] returns. *)
Theorem scoring_mixed_line_neutral (p : Z) (l : line) :
  In (Some p) l -> In (Some (1 - p)) l ->
  (forall l', Permutation l l' ->
     forall score t, connect_four_body p (1 - p) score l' t = (Ok score, t)) /\
  (forall ls1 ls2,
     outcome (connect_four_scoring {| lines := ls1 ++ l :: ls2 |} p)
     = outcome (connect_four_scoring {| lines := ls1 ++ ls2 |} p)) /\
  (forall ls,
     outcome (connect_four_scoring {| lines := ls ++ [l] |} p)
     = outcome (connect_four_scoring {| lines := ls |} p)).
Proof.
  intros Hp Ho.
  assert (Hins : forall ls1 ls2,
     outcome (connect_four_scoring {| lines := ls1 ++ l :: ls2 |} p)
     = outcome (connect_four_scoring {| lines := ls1 ++ ls2 |} p)).
  { intros ls1 ls2. rewrite !scoring_outcome. cbn [lines]. f_equal.
    rewrite !total_delta_app. unfold total_delta at 2. cbn [map fold_right].
    fold (total_delta p ls2).
    destruct (line_delta_mixed p l Hp Ho) as [-> _]. lia. }
  split; [| split].
  - intros l' Hperm score t. rewrite body_run.
    destruct (line_delta_mixed p l') as [-> ->].
    + eapply Permutation_in; eassumption.
    + eapply Permutation_in; eassumption.
    + now rewrite Z.add_0_r, app_nil_r.
  - exact Hins.
  - intros ls. rewrite (Hins ls []). now rewrite app_nil_r.
Qed.

Lemma scoring_mixed_line_neutral_witness :
  connect_four_body 1 (1 - 1) 40 [None; Some 0; None; Some 1] []
  = (Ok 40, []) /\
  outcome (connect_four_scoring
             {| lines := [[Some 1; Some 1; Some 1; None]]
                         ++ [[Some 0; None; Some 1; None]] |} 1)
  = outcome (connect_four_scoring
               {| lines := [[Some 1; Some 1; Some 1; None]] |} 1).
Proof.
  assert (H1 : In (Some 1) [Some 0; None; Some 1; None]) by (cbn; tauto).
  assert (H0 : In (Some (1 - 1)) [Some 0; None; Some 1; None]) by (cbn; tauto).
  split.
  - apply (proj1 (scoring_mixed_line_neutral 1 _ H1 H0)).
    apply perm_trans with [None; Some 0; Some 1; None].
    + apply perm_swap.
    + apply perm_skip, perm_skip, perm_swap.
  - apply (proj2 (proj2 (scoring_mixed_line_neutral 1 _ H1 H0))).
Defined.

(** X17. Every call of [score_alignment] that the scoring part of
    [connect_four] makes passes 0 as the opponent count, so neither the
    branch for a count of 3 with one blocker nor the branch for a count of 2
    with one blocker is taken there. *)
Theorem scoring_calls_unblocked
    (c : Connect4State) (p count opponent_count : Z) :
  In (EvScoreAlignment count opponent_count)
     (events (connect_four_scoring c p)) ->
  opponent_count = 0 /\
  (count =? 3) && (opponent_count =? 1) = false /\
  (count =? 2) && (opponent_count =? 1) = false.
Proof.
  intros H.
  assert (E : opponent_count = 0).
  { unfold events in H. rewrite scoring_run in H. cbn [snd] in H.
    destruct H as [H | H]; [discriminate |].
    unfold total_calls in H. apply in_concat in H.
    destruct H as [calls [Hcalls Hin]].
    apply in_map_iff in Hcalls. destruct Hcalls as [l [<- _]].
    eapply line_calls_unblocked; eassumption. }
  subst. cbn. now rewrite !andb_false_r.
Qed.

Lemma scoring_calls_unblocked_witness :
  In (EvScoreAlignment 3 0)
     (events (connect_four_scoring
                {| lines := [[Some 1; Some 1; Some 1; None];
                             [Some 0; Some 1; None; None]] |} 1)) /\
  0 = 0 /\ (3 =? 3) && (0 =? 1) = false /\ (3 =? 2) && (0 =? 1) = false.
Proof.
  assert (H : In (EvScoreAlignment 3 0)
     (events (connect_four_scoring
                {| lines := [[Some 1; Some 1; Some 1; None];
                             [Some 0; Some 1; None; None]] |} 1))).
  { vm_compute. right. left. reflexivity. }
  split; [exact H |].
  exact (scoring_calls_unblocked _ _ _ _ H).
Defined.

(** X18. The scoring part of [connect_four] is anti-symmetric in the
    perspective player: on every connect-four state, from the side of
    [1 - p] it returns the negation of what it returns from the side of
    [p]. *)
Theorem scoring_antisymmetric (c : Connect4State) (p : Z) :
  exists v : Z,
    outcome (connect_four_scoring c p) = Ok v /\
    outcome (connect_four_scoring c (1 - p)) = Ok (- v).
Proof.
  exists (total_delta p (lines c)).
  rewrite !scoring_outcome, total_delta_opponent. now split.
Qed.

(** ** The sign of a converted integer *)

Lemma binary_round_aux_not_negative (mx ex : Z) (lx : location) :
  not_negative (binary_round_aux prec emax false mx ex lx).
Proof.
  unfold binary_round_aux.
  destruct (shr_fexp prec emax mx ex lx) as [mrs' e'].
  destruct (shr_fexp prec emax _ e' loc_Exact) as [mrs'' e''].
  destruct (shr_m mrs''); [reflexivity | | exact I].
  now destruct (e'' <=? emax - prec).
Qed.

Lemma binary_round_not_negative (m : positive) (e : Z) :
  not_negative (binary_round prec emax false m e).
Proof.
  unfold binary_round. destruct (shl_align m e _) as [mz ez].
  apply binary_round_aux_not_negative.
Qed.

Lemma binary_normalize_not_negative (n e : Z) :
  0 <= n -> not_negative (binary_normalize prec emax n e false).
Proof.
  intros Hn. destruct n as [| m | m]; [reflexivity | | lia].
  apply binary_round_not_negative.
Qed.

Lemma not_negative_not_below_zero (sf : spec_float) :
  not_negative sf -> SFltb sf (S754_zero false) = false.
Proof. destruct sf as [s | s | | s m e]; cbn; intros H; subst; reflexivity. Qed.

Lemma SF2Prim_not_negative (sf : spec_float) :
  not_negative sf -> (SF2Prim sf <? 0)%float = false.
Proof.
  intros H. rewrite FloatAxioms.ltb_spec.
  change (Prim2SF 0) with (S754_zero false).
  apply not_negative_not_below_zero.
  destruct sf as [s | s | | s m e]; cbn in H; subst; try reflexivity.
  unfold SF2Prim. rewrite Z_ldexp_spec, of_uint63_spec.
  unfold SFldexp.
  pose proof (binary_normalize_not_negative
                (Uint63.to_Z (Uint63.of_Z (Z.pos m))) 0
                (proj1 (Uint63.to_Z_bounded _))) as Hn.
  destruct (binary_normalize prec emax _ 0 false) as [s | s | | s m' e'];
    cbn in Hn; subst; try reflexivity.
  apply binary_round_not_negative.
Qed.

Lemma Z_to_float_not_negative (n : Z) (x : float) :
  0 <= n -> Z_to_float n = Some x -> (x <? 0)%float = false.
Proof.
  intros Hn H.
  assert (Hx : x = SF2Prim (binary_normalize prec emax n 0 false)).
  { unfold Z_to_float in H.
    destruct (binary_normalize prec emax n 0 false);
      cbv beta iota in H; congruence. }
  rewrite Hx. now apply SF2Prim_not_negative, binary_normalize_not_negative.
Qed.

Lemma math_sqrt_outcome (n : Z) :
  0 <= n ->
  outcome (math_sqrt n)
  = match Z_to_float n with
    | Some x => Ok (PrimFloat.sqrt x)
    | None => Raise (OverflowError "int too large to convert to float")
    end.
Proof.
  intros Hn. unfold outcome, run, math_sqrt, float_of_int, bind, ret, raise.
  destruct (Z_to_float n) as [x |] eqn:E; [| reflexivity].
  now rewrite (Z_to_float_not_negative n x Hn E).
Qed.

Lemma py_eq_other (owner : option Z) (p : Z) :
  owner <> Some p -> py_eq owner p = false.
Proof.
  intros H. destruct owner as [q |]; [| reflexivity]. cbn.
  apply Z.eqb_neq. congruence.
Qed.

Lemma squared_distance_offset (s : SoccerState) (p : Z) :
  squared_distance (ball_position s) (goal_position s (1 - p))
  = Z.abs (fst (offset s p)) * Z.abs (fst (offset s p))
    + Z.abs (snd (offset s p)) * Z.abs (snd (offset s p)).
Proof.
  unfold squared_distance, offset. cbn [fst snd].
  now rewrite !Z.pow_2_r, !Z.abs_square.
Qed.

Lemma both_scores_on_goal : both_scores 0 = Ok (1050%float, 950%float).
Proof. reflexivity. Qed.

(** ** Further properties of [soccer] and [score_alignment] *)

(** X9. On a soccer state [soccer] fails in one way only: it raises
    [OverflowError] when the squared distance between ball and goal is too
    large to be converted to a float, and returns a score otherwise; the
    domain error of [math.sqrt] never occurs. *)
Theorem soccer_failure_modes (s : SoccerState) (p : Z) :
  match outcome (soccer (IsSoccerState s) p) with
  | Ok _ =>
      Z_to_float (squared_distance (ball_position s) (goal_position s (1 - p)))
      <> None
  | Raise e =>
      e = OverflowError "int too large to convert to float" /\
      Z_to_float (squared_distance (ball_position s) (goal_position s (1 - p)))
      = None
  end.
Proof.
  rewrite soccer_outcome, score_of_distance, math_sqrt_outcome
    by apply squared_distance_nonneg.
  destruct (Z_to_float (squared_distance _ _)) as [x |].
  - unfold possession_base. destruct (py_eq (possession s) p).
    + rewrite score_from_distance_owner. discriminate.
    + rewrite score_from_distance_other. discriminate.
  - now split.
Qed.

Lemma soccer_failure_modes_witness :
  exists e : exn,
    outcome (soccer (IsSoccerState beyond_floats) 0) = Raise e /\
    e = OverflowError "int too large to convert to float".
Proof.
  pose proof (soccer_failure_modes beyond_floats 0) as H.
  destruct (outcome (soccer (IsSoccerState beyond_floats) 0)) as [v | e].
  - exfalso. apply H. vm_compute. reflexivity.
  - exists e. tauto.
Defined.

(** X10. A ball that nobody owns counts like a ball of the opponent: two
    soccer states with the same ball position and the same goal of the
    opponent, in neither of which [p] is in possession, are evaluated alike
    for [p]. *)
Theorem soccer_loose_ball (p : Z) (s1 s2 : SoccerState) :
  ball_position s1 = ball_position s2 ->
  goal_position s1 (1 - p) = goal_position s2 (1 - p) ->
  possession s1 <> Some p -> possession s2 <> Some p ->
  run (soccer (IsSoccerState s1) p) = run (soccer (IsSoccerState s2) p).
Proof.
  intros Hball Hgoal H1 H2. unfold run. rewrite !soccer_run.
  unfold possession_base.
  now rewrite Hball, Hgoal, (py_eq_other _ _ H1), (py_eq_other _ _ H2).
Qed.

Lemma soccer_loose_ball_witness :
  run (soccer (IsSoccerState (soccer_state (1, 2) (0, 10) (0, 0) None)) 0)
  = run (soccer (IsSoccerState near_goal_lost) 0).
Proof.
  apply (soccer_loose_ball 0); try reflexivity; discriminate.
Defined.

(** X11. The best score is reached on the goal: with the ball on the goal
    of the opponent [soccer] returns 1050 for a player in possession and 950
    otherwise, and at every other ball position, up to a squared distance of
    [pitch_bound], it returns strictly less. *)
Theorem soccer_best_on_goal (s : SoccerState) (p : Z) :
  (ball_position s = goal_position s (1 - p) ->
   outcome (soccer (IsSoccerState s) p)
   = Ok (score_on_goal (py_eq (possession s) p))) /\
  (0 < squared_distance (ball_position s) (goal_position s (1 - p))
     <= pitch_bound ->
   exists v : float,
     outcome (soccer (IsSoccerState s) p) = Ok v /\
     (v <? score_on_goal (py_eq (possession s) p))%float = true).
Proof.
  rewrite soccer_outcome. unfold possession_base. split.
  - intros ->. unfold squared_distance. rewrite !Z.sub_diag.
    now destruct (py_eq (possession s) p).
  - intros Hn.
    set (n := squared_distance (ball_position s) (goal_position s (1 - p))) in *.
    destruct (closer_scores_more_chain (Z.to_nat (n - 1)) 0)
      as [c1 [[a b] [H1 [H2 Hbelow]]]];
      [lia | rewrite Z2Nat.id; lia |].
    replace (0 + 1 + Z.of_nat (Z.to_nat (n - 1))) with n in H2
      by (rewrite Z2Nat.id; lia).
    rewrite both_scores_on_goal in H1. injection H1 as <-.
    apply both_scores_spec in H2. destruct H2 as [Ha Hb].
    unfold below in Hbelow. cbn [fst snd] in Hbelow.
    apply andb_true_iff in Hbelow.
    destruct (py_eq (possession s) p); cbn [score_on_goal].
    + exists a. tauto.
    + exists b. tauto.
Qed.

Lemma soccer_best_on_goal_witness :
  outcome (soccer (IsSoccerState
                     (soccer_state (4, 7) (0, 10) (4, 7) (Some 0))) 0)
  = Ok 1050%float /\
  exists v : float,
    outcome (soccer (IsSoccerState near_goal_lost) 0) = Ok v /\
    (v <? 950)%float = true.
Proof.
  split.
  - apply (proj1 (soccer_best_on_goal
                    (soccer_state (4, 7) (0, 10) (4, 7) (Some 0)) 0)).
    reflexivity.
  - apply (proj2 (soccer_best_on_goal near_goal_lost 0)).
    split; [reflexivity | vm_compute; discriminate].
Defined.

(** X12. The line score is ordered as a heuristic should be: it lies
    between 0 and 1000, one more own piece never lowers it up to a count of
    four, and one more blocker never raises it. *)
Theorem score_alignment_ordered (count count' blockers blockers' : Z) :
  0 <= score_alignment count blockers <= 1000 /\
  (count <= count' <= 4 ->
   score_alignment count blockers <= score_alignment count' blockers) /\
  (0 <= blockers <= blockers' ->
   score_alignment count blockers' <= score_alignment count blockers).
Proof.
  split; [apply score_alignment_range |].
  unfold score_alignment. split; intros H.
  - destruct (Z.eqb_spec count 4), (Z.eqb_spec count 3), (Z.eqb_spec count 2),
      (Z.eqb_spec count' 4), (Z.eqb_spec count' 3), (Z.eqb_spec count' 2),
      (Z.eqb_spec blockers 0), (Z.eqb_spec blockers 1); cbn [andb]; lia.
  - destruct (Z.eqb_spec count 4), (Z.eqb_spec count 3), (Z.eqb_spec count 2),
      (Z.eqb_spec blockers 0), (Z.eqb_spec blockers 1),
      (Z.eqb_spec blockers' 0), (Z.eqb_spec blockers' 1); cbn [andb]; lia.
Qed.

Lemma score_alignment_ordered_witness :
  score_alignment 2 0 <= score_alignment 3 0 /\
  score_alignment 3 1 <= score_alignment 3 0.
Proof.
  split.
  - apply (score_alignment_ordered 2 3 0 0). lia.
  - apply (score_alignment_ordered 3 3 0 1). lia.
Defined.

(** X13. Only the offset between ball and goal is seen, and only up to
    symmetry: two soccer states in which [p] is or is not in possession
    alike, and whose offsets from the goal of the opponent to the ball agree
    in absolute value, coordinate by coordinate or with the two coordinates
    exchanged, are given the same score for [p]. So moving ball and goal
    together, mirroring the pitch or turning it by a quarter changes
    nothing. *)
Theorem soccer_sees_only_the_offset (p : Z) (s1 s2 : SoccerState) :
  py_eq (possession s1) p = py_eq (possession s2) p ->
  (Z.abs (fst (offset s1 p)) = Z.abs (fst (offset s2 p)) /\
   Z.abs (snd (offset s1 p)) = Z.abs (snd (offset s2 p))) \/
  (Z.abs (fst (offset s1 p)) = Z.abs (snd (offset s2 p)) /\
   Z.abs (snd (offset s1 p)) = Z.abs (fst (offset s2 p))) ->
  outcome (soccer (IsSoccerState s1) p) = outcome (soccer (IsSoccerState s2) p).
Proof.
  intros Hown Hoff. rewrite !soccer_outcome. unfold possession_base.
  rewrite Hown, !squared_distance_offset.
  destruct Hoff as [[-> ->] | [-> ->]]; [reflexivity |].
  now rewrite Z.add_comm.
Qed.

Lemma soccer_sees_only_the_offset_witness :
  outcome (soccer (IsSoccerState (soccer_state (1, 2) (0, 10) (0, 0) (Some 0))) 0)
  = outcome (soccer (IsSoccerState
                       (soccer_state (5, 8) (7, 7) (7, 9) (Some 0))) 0).
Proof.
  apply (soccer_sees_only_the_offset 0).
  - reflexivity.
  - right. split; reflexivity.
Defined.
